(** * TheanoLM layers: [theanolm/layers/basiclayer.py] and
      [theanolm/network/softmaxlayer.py]

    A shallow embedding of the layer base class and of the softmax output
    layer, and the properties of the layer-composition architecture that are
    proved about them.

    Conventions of the embedding.
    - Scalars of dtype [floatX] are real numbers: rounding is not modelled.
    - An array is the nested list of its elements in row-major order: a
      vector is a list, a matrix the list of its rows, a 3-dimensional tensor
      the list (time steps) of lists (sequences) of feature vectors.  The
      column count of a matrix without rows is therefore not represented.
    - A Theano variable is modelled by the value it takes in one evaluation
      of the graph; the evaluation fixes the value of every input layer's
      output, of every shared parameter and of the target class ids.
    - Exceptions raised while the Python code runs (building the graph) are
      explicit: [Py.result].  Shape mismatches inside the graph would only
      appear when the compiled function runs; the array operations are total
      and the theorems state the shapes they need. *)

From Stdlib Require Import Reals Lia List String Relations.
From stdpp Require Import gmap strings list fin_maps.

Set Default Proof Using "Type".

(* ===================================================================== *)
(** * Python results and exceptions *)
(* ===================================================================== *)

Module Py.

Inductive exn : Type :=
| NameError (name : string)
| KeyError (key : string)
| AttributeError (attr : string)
| ValueError (msg : string)
| TypeError (msg : string).

Inductive result (A : Type) : Type :=
| Ok (a : A)
| Raise (e : exn).
Arguments Ok {A} a.
Arguments Raise {A} e.

#[export] Instance result_ret : MRet result := @Ok.
#[export] Instance result_bind : MBind result :=
  fun A B f r => match r with Ok a => f a | Raise e => Raise e end.
#[export] Instance result_fmap : FMap result :=
  fun A B f r => match r with Ok a => Ok (f a) | Raise e => Raise e end.

Definition is_ok {A} (r : result A) : bool :=
  match r with Ok _ => true | Raise _ => false end.

(** [d[key]] on a dict. *)
Definition getitem {V} (d : gmap string V) (key : string) : result V :=
  match d !! key with
  | Some v => Ok v
  | None => Raise (KeyError key)
  end.

(** [obj.attr] for an attribute that exists only once it has been
    assigned. *)
Definition getattr {V} (attr : string) (slot : option V) : result V :=
  match slot with
  | Some v => Ok v
  | None => Raise (AttributeError attr)
  end.

End Py.
Import Py.

(* ===================================================================== *)
(** * Arrays: the numpy and Theano operations the layers use *)
(* ===================================================================== *)

Module Tensor.

Abbreviation vector := (list R).
Abbreviation matrix := (list (list R)).
Abbreviation tensor3 := (list (list (list R))).

(** Values kept in the parameter dictionaries. *)
Inductive ndarray : Type :=
| Arr1 (v : vector)
| Arr2 (m : matrix).

Definition vsum (v : vector) : R := foldr Rplus 0%R v.

(** [shape[0]], [shape[1]] of a matrix and of a 3-dimensional tensor. *)
Definition nrows {A} (m : list (list A)) : nat := length m.
Definition ncols {A} (m : list (list A)) : nat := length (hd [] m).

(** [m] has exactly [r] rows of [c] entries. *)
Definition has_shape {A} (r c : nat) (m : list (list A)) : bool :=
  (length m =? r) && forallb (fun row => length row =? c) m.


(** [numpy.zeros(size)] and [numpy.empty(size)] followed by [fill]. *)
Definition zeros (size : nat) : vector := replicate size 0%R.
Definition full (size : nat) (x : R) : vector := replicate size x.

(** [numpy.concatenate(vs)] of vectors: at least one array is needed. *)
Definition concatenate (vs : list vector) : result vector :=
  match vs with
  | [] => Raise (ValueError "need at least one array to concatenate")
  | _ => Ok (concat vs)
  end.

(** Two matrices side by side; the row counts have to agree. *)
Definition hstack (a b : matrix) : result matrix :=
  if length a =? length b then Ok (zip_with app a b)
  else Raise (ValueError "all the input array dimensions except for the concatenation axis must match exactly").

Fixpoint hstack_all (acc : matrix) (ms : list matrix) : result matrix :=
  match ms with
  | [] => Ok acc
  | m :: ms' => acc' ← hstack acc m; hstack_all acc' ms'
  end.

(** [numpy.concatenate(ms, axis=1)] of matrices. *)
Definition concatenate_axis1 (ms : list matrix) : result matrix :=
  match ms with
  | [] => Raise (ValueError "need at least one array to concatenate")
  | m :: ms' => hstack_all m ms'
  end.

(** Two 3-dimensional tensors joined along the third axis. *)
Definition join2 (a b : tensor3) : tensor3 := zip_with (zip_with app) a b.

(** [tensor.concatenate(xs, axis=2)]: joining no tensor at all is refused
    when the graph is built. *)
Definition concatenate_axis2 (xs : list tensor3) : result tensor3 :=
  match xs with
  | [] => Raise (ValueError "Cannot join an empty list of tensors")
  | x :: xs' => Ok (foldl join2 x xs')
  end.

(** Row vector times matrix: entry [j] is the sum over [k] of
    [x[k] * w[k][j]]. *)
Definition vecmat (x : vector) (w : matrix) : vector :=
  map (fun j => vsum (zip_with (fun xk row => (xk * nth j row 0)%R) x w))
      (seq 0 (ncols w)).

(** [tensor.dot(x, w)] for a 3-dimensional [x] and a matrix [w]: the
    product is taken at every (time step, sequence) position. *)
Definition dot (x : tensor3) (w : matrix) : tensor3 :=
  map (map (fun v => vecmat v w)) x.

(** [x + b] with the vector [b] broadcast over the first two axes. *)
Definition add_bias (x : tensor3) (b : vector) : tensor3 :=
  map (map (fun v => zip_with Rplus v b)) x.

(** Row-major list of the elements. *)
Definition flatten2 {A} (m : list (list A)) : list A := concat m.
Definition flatten3 {A} (x : list (list (list A))) : list A :=
  concat (concat x).

(** [reshape([r, c])] of a flat array: [r] consecutive rows of [c]. *)
Fixpoint unflatten {A} (r c : nat) (data : list A) : list (list A) :=
  match r with
  | 0 => []
  | S r' => take c data :: unflatten r' c (drop c data)
  end.

(** [reshape([t, s, v])] of a flat array. *)
Definition unflatten3 {A} (t s v : nat) (data : list A)
  : list (list (list A)) :=
  map (unflatten s v) (unflatten t (s * v) data).

(** The softmax of one row, over the reals: [exp(x) / sum(exp(v))]. *)
Definition softmax_row (v : vector) : vector :=
  let z := vsum (map exp v) in map (fun x => (exp x / z)%R) v.

(** [tensor.nnet.softmax(m)]: row-wise softmax of a matrix. *)
Definition softmax (m : matrix) : matrix := map softmax_row m.

(** [m[(rows, cols)]]: for every [i], the entry [m[rows[i]][cols[i]]].
    Building the expression never raises; the compiled function raises
    when it is run with an index outside the matrix.  The model reads 0
    there, and the theorems about the entries are stated for indices
    inside the matrix. *)
Definition take_pairs (m : matrix) (rows cols : list nat) : vector :=
  zip_with (fun i c => nth c (nth i m []) 0%R) rows cols.


End Tensor.
Import Tensor.

(* ===================================================================== *)
(** * [theanolm/layers/basiclayer.py]: class [BasicLayer] *)
(* ===================================================================== *)

Module basiclayer.

(** What [BasicLayer.__init__] asks of the elements of [input_layers]:
    the log line reads [x.name] of every one of them.  A reference that
    does not lead to a layer has no such attribute. *)
Class Named (L : Type) := get_name : L -> result string.

(** The attributes of a [BasicLayer] object.  [_params] exists only after
    [set_params].  [param_init_values] is an [OrderedDict]; nothing here
    depends on the order of its keys. *)
Record BasicLayer (L : Type) : Type := mkBasicLayer {
  name : string;
  input_layers : list L;
  output_size : nat;
  is_recurrent : bool;
  _profile : bool;
  param_init_values : gmap string ndarray;
  _params : option (gmap string ndarray)
}.
Arguments mkBasicLayer {L}.
Arguments name {L}.
Arguments input_layers {L}.
Arguments output_size {L}.
Arguments is_recurrent {L}.
Arguments _profile {L}.
Arguments param_init_values {L}.
Arguments _params {L}.

Section Methods.
Context {L : Type} `{Named L}.

(** [BasicLayer.__init__] (lines 15-50). *)
Definition __init__ (layer_name : string) (input_layers : list L)
    (output_size : nat) (profile is_recurrent : bool)
  : result (BasicLayer L) :=
  (* ', '.join([x.name for x in input_layers]) *)
  _ ← mapM get_name input_layers;
  mret {| name := layer_name;
          input_layers := input_layers;
          output_size := output_size;
          is_recurrent := is_recurrent;
          _profile := profile;
          param_init_values := ∅;
          _params := None |}.

(** [self.param_init_values[key] = value] *)
Definition store_init_value (self : BasicLayer L) (key : string)
    (value : ndarray) : BasicLayer L :=
  {| name := name self;
     input_layers := input_layers self;
     output_size := output_size self;
     is_recurrent := is_recurrent self;
     _profile := _profile self;
     param_init_values := <[key := value]> (param_init_values self);
     _params := _params self |}.

(** [BasicLayer.set_params] (lines 52-53). *)
Definition set_params (self : BasicLayer L)
    (params : gmap string ndarray) : BasicLayer L :=
  {| name := name self;
     input_layers := input_layers self;
     output_size := output_size self;
     is_recurrent := is_recurrent self;
     _profile := _profile self;
     param_init_values := param_init_values self;
     _params := Some params |}.

(** [self.name + '.' + param_name] *)
Definition param_key (self : BasicLayer L) (param_name : string)
  : string :=
  name self +:+ "." +:+ param_name.

(** [BasicLayer._get_param] (lines 55-56). *)
Definition _get_param (self : BasicLayer L) (param_name : string)
  : result ndarray :=
  params ← getattr "_params" (_params self);
  getitem params (param_key self param_name).

(** The generators of [theanolm.matrixfunctions] are not among the
    sources.  They draw from numpy's global random state: [rng] is that
    state, and a generator maps [(input_size, output_size, scale)] and
    the state to the matrix drawn and the state left behind. *)
Section Weights.
Variable rng : Type.
Variable random_weight orthogonal_weight :
  nat -> nat -> option R -> rng -> matrix * rng.

(** [[gen(...) for _ in range(count)]]: [count] draws in sequence. *)
Fixpoint draw (gen : rng -> matrix * rng) (count : nat) (g : rng)
  : list matrix * rng :=
  match count with
  | 0 => ([], g)
  | S n =>
      let '(m, g1) := gen g in
      let '(ms, g2) := draw gen n g1 in
      (m :: ms, g2)
  end.

(** [BasicLayer._init_random_weight] (lines 58-77).  The generator is
    called with the literal [scale=0.01]. *)
Definition _init_random_weight (self : BasicLayer L)
    (param_name : string) (input_size output_size : nat)
    (scale : option R) (count : nat) (g : rng)
  : result (BasicLayer L * rng) :=
  let '(blocks, g') :=
    draw (random_weight input_size output_size (Some 0.01%R)) count g in
  value ← concatenate_axis1 blocks;
  mret (store_init_value self (param_key self param_name) (Arr2 value),
        g').

(** [BasicLayer._init_orthogonal_weight] (lines 79-97). *)
Definition _init_orthogonal_weight (self : BasicLayer L)
    (param_name : string) (input_size output_size : nat)
    (scale : option R) (count : nat) (g : rng)
  : result (BasicLayer L * rng) :=
  let '(blocks, g') :=
    draw (orthogonal_weight input_size output_size (Some 0.01%R))
         count g in
  value ← concatenate_axis1 blocks;
  mret (store_init_value self (param_key self param_name) (Arr2 value),
        g').
End Weights.

(** The [value] argument of [_init_bias]: [None], a float, a list whose
    elements are [None] or floats, or a numpy vector. *)
Inductive bias_value : Type :=
| BNone
| BFloat (x : R)
| BList (xs : list (option R))
| BArray (a : vector).

(** An element of [values] in the loop of [_init_bias]. *)
Inductive subvector_value : Type :=
| SNone
| SFloat (x : R)
| SArray (a : vector).

(** [values = value if isinstance(value, list) else [value]] *)
Definition bias_values (value : bias_value) : list subvector_value :=
  match value with
  | BNone => [SNone]
  | BFloat x => [SFloat x]
  | BList xs =>
      map (fun o => match o with None => SNone | Some x => SFloat x end) xs
  | BArray a => [SArray a]
  end.

(** The body of the loop: [numpy.zeros(size)] for [None], otherwise
    [numpy.empty(size)] filled with the value.  [fill] takes a scalar and
    refuses an array. *)
Definition make_subvector (size : nat) (v : subvector_value)
  : result vector :=
  match v with
  | SNone => Ok (zeros size)
  | SFloat x => Ok (full size x)
  | SArray _ => Raise (ValueError "setting an array element with a sequence.")
  end.

(** What the loop body makes of an element of a list [value]: zeros
    for [None], the constant vector for a float. *)
Definition subvector_of (size : nat) (o : option R) : vector :=
  match o with
  | None => zeros size
  | Some x => full size x
  end.

(** [BasicLayer._init_bias] (lines 99-130). *)
Definition _init_bias (self : BasicLayer L) (param_name : string)
    (size : nat) (value : bias_value) : result (BasicLayer L) :=
  subvectors ← mapM (make_subvector size) (bias_values value);
  vec ← concatenate subvectors;
  mret (store_init_value self (param_key self param_name) (Arr1 vec)).

(** [tensor.dot(input_matrix, weight) + bias].  The layers keep a matrix
    under [.W] and a vector under [.b]; the product with an array of
    another rank is not modelled. *)
Definition affine (input_matrix : tensor3) (weight bias : ndarray)
  : result tensor3 :=
  match weight, bias with
  | Arr2 w, Arr1 b => Ok (add_bias (dot input_matrix w) b)
  | _, _ => Raise (TypeError "rank of a parameter")
  end.

(** [BasicLayer._tensor_preact] (lines 132-135). *)
Definition _tensor_preact (self : BasicLayer L) (input_matrix : tensor3)
    (param_name : string) : result tensor3 :=
  params ← getattr "_params" (_params self);
  weight ← getitem params (name self +:+ "." +:+ param_name +:+ ".W");
  params ← getattr "_params" (_params self);
  bias ← getitem params (name self +:+ "." +:+ param_name +:+ ".b");
  affine input_matrix weight bias.

End Methods.

(** ** Layers and lists as objects

    A program holds layers and lists by reference.  Line 39 assigns the
    caller's list itself to [self.input_layers], not a copy: the attribute
    refers to a list object that the caller can still change.  The heap
    keeps the list objects and the layer objects; a reference is an index
    into it. *)

Abbreviation ref := nat (only parsing).












End basiclayer.
Import basiclayer.

(* ===================================================================== *)
(** * [theanolm/network/softmaxlayer.py]: class [SoftmaxLayer] *)
(* ===================================================================== *)

(** [SoftmaxLayer] extends [SamplingOutputLayer], which is not among the
    sources, and uses what it inherits: the constructor, the attributes
    [_input_layers], [_network] and [output_size], and the methods
    [_init_weight], [_init_bias], [_tensor_preact] and four sampling
    helpers.  None of these is taken from another file: the inherited
    callables are parameters of the two methods below, and the theorems
    hold for every choice of them. *)

Module softmaxlayer.

(** What the softmax layer reads of an input layer: its [name], its
    [output_size] and its [output]. *)
Module Input.
Record t : Type := mk {
  name : string;
  output_size : nat;
  output : tensor3
}.
End Input.

#[export] Instance input_named : Named Input.t :=
  fun x => Ok (Input.name x).

(** What the layer reads of [self._network]. *)
Record Vocabulary : Type := mkVocabulary {
  word_to_id : gmap string nat
}.

Record Network : Type := mkNetwork {
  class_prior_probs : option vector;
  vocabulary : Vocabulary;
  exclude_unk : bool;
  target_class_ids : list (list nat)
}.

Section Layer.
(** The type of the tensors that the sampling helpers return. *)
Variable SV : Type.

(** The attributes of a [SoftmaxLayer] object.  [base] holds the
    attributes that the layer base class keeps (the name, [output_size],
    the declared values and the parameters); [_input_layers] and
    [_network] are the two further attributes that the inherited
    constructor leaves and that the methods below read; the others are the
    ones lines 35-45 assign ([None] is Python's [None]). *)
Record SoftmaxLayer : Type := mkSoftmaxLayer {
  base : BasicLayer Input.t;
  _input_layers : list Input.t;
  _network : Network;
  _unk_id : nat;
  output_probs : option tensor3;
  target_probs : option matrix;
  unnormalized_logprobs : option SV;
  sample : option SV;
  sample_logprobs : option SV;
  seqshared_sample : option SV;
  seqshared_sample_logprobs : option SV;
  shared_sample : option SV;
  shared_sample_logprobs : option SV
}.

Section Init.
(** The arguments of the constructor, which [__init__] only hands on. *)
Variable Args : Type.
(** The state of numpy's random generator. *)
Variable rng : Type.
(** The inherited constructor, which line 23 calls on the arguments: it
    returns the attributes of the base class, [self._input_layers] and
    [self._network], or raises. *)
Variable super_init :
  Args -> result (BasicLayer Input.t * list Input.t * Network).
(** [self._init_weight(param_name, shape, scale=...)] and
    [self._init_bias(param_name, size[, value])]: each returns the
    attributes of the base class as it leaves them, or raises. *)
Variable _init_weight :
  BasicLayer Input.t -> string -> nat * nat -> option R -> rng ->
  result (BasicLayer Input.t * rng).
Variable _init_bias :
  BasicLayer Input.t -> string -> nat -> option vector ->
  result (BasicLayer Input.t).

(** [SoftmaxLayer.__init__] (lines 19-45). *)
Definition __init__ (args : Args) (g : rng) : result (SoftmaxLayer * rng) :=
  '(self, _input_layers, _network) ← super_init args;
  let input_size := sum_list_with Input.output_size _input_layers in
  let output_size := basiclayer.output_size self in
  '(self, g') ← _init_weight self "input/W" (input_size, output_size)
                  (Some 0.01%R) g;
  self ← match class_prior_probs _network with
         | None => _init_bias self "input/b" output_size None
         | Some probs =>
             let initial_bias := map (fun p => ln (p + 1e-10)%R) probs in
             _init_bias self "input/b" output_size (Some initial_bias)
         end;
  unk_id ← getitem (word_to_id (vocabulary _network)) "<unk>";
  mret ({| base := self;
           _input_layers := _input_layers;
           _network := _network;
           _unk_id := unk_id;
           output_probs := None;
           target_probs := None;
           unnormalized_logprobs := None;
           sample := None;
           sample_logprobs := None;
           seqshared_sample := None;
           seqshared_sample_logprobs := None;
           shared_sample := None;
           shared_sample_logprobs := None |}, g').
End Init.

(** Assignments to the attributes of [self]. *)
Definition set_output_probs (self : SoftmaxLayer) (v : tensor3) :=
  {| base := base self; _input_layers := _input_layers self;
     _network := _network self;
     _unk_id := _unk_id self;
     output_probs := Some v;
     target_probs := target_probs self;
     unnormalized_logprobs := unnormalized_logprobs self;
     sample := sample self;
     sample_logprobs := sample_logprobs self;
     seqshared_sample := seqshared_sample self;
     seqshared_sample_logprobs := seqshared_sample_logprobs self;
     shared_sample := shared_sample self;
     shared_sample_logprobs := shared_sample_logprobs self |}.

Definition set_target_probs (self : SoftmaxLayer) (v : matrix) :=
  {| base := base self; _input_layers := _input_layers self;
     _network := _network self;
     _unk_id := _unk_id self;
     output_probs := output_probs self;
     target_probs := Some v;
     unnormalized_logprobs := unnormalized_logprobs self;
     sample := sample self;
     sample_logprobs := sample_logprobs self;
     seqshared_sample := seqshared_sample self;
     seqshared_sample_logprobs := seqshared_sample_logprobs self;
     shared_sample := shared_sample self;
     shared_sample_logprobs := shared_sample_logprobs self |}.

Definition set_unnormalized_logprobs (self : SoftmaxLayer) (v : SV) :=
  {| base := base self; _input_layers := _input_layers self;
     _network := _network self;
     _unk_id := _unk_id self;
     output_probs := output_probs self;
     target_probs := target_probs self;
     unnormalized_logprobs := Some v;
     sample := sample self;
     sample_logprobs := sample_logprobs self;
     seqshared_sample := seqshared_sample self;
     seqshared_sample_logprobs := seqshared_sample_logprobs self;
     shared_sample := shared_sample self;
     shared_sample_logprobs := shared_sample_logprobs self |}.

Definition set_sample (self : SoftmaxLayer) (v : SV * SV) :=
  {| base := base self; _input_layers := _input_layers self;
     _network := _network self;
     _unk_id := _unk_id self;
     output_probs := output_probs self;
     target_probs := target_probs self;
     unnormalized_logprobs := unnormalized_logprobs self;
     sample := Some (fst v);
     sample_logprobs := Some (snd v);
     seqshared_sample := seqshared_sample self;
     seqshared_sample_logprobs := seqshared_sample_logprobs self;
     shared_sample := shared_sample self;
     shared_sample_logprobs := shared_sample_logprobs self |}.

Definition set_seqshared_sample (self : SoftmaxLayer) (v : SV * SV) :=
  {| base := base self; _input_layers := _input_layers self;
     _network := _network self;
     _unk_id := _unk_id self;
     output_probs := output_probs self;
     target_probs := target_probs self;
     unnormalized_logprobs := unnormalized_logprobs self;
     sample := sample self;
     sample_logprobs := sample_logprobs self;
     seqshared_sample := Some (fst v);
     seqshared_sample_logprobs := Some (snd v);
     shared_sample := shared_sample self;
     shared_sample_logprobs := shared_sample_logprobs self |}.

Definition set_shared_sample (self : SoftmaxLayer) (v : SV * SV) :=
  {| base := base self; _input_layers := _input_layers self;
     _network := _network self;
     _unk_id := _unk_id self;
     output_probs := output_probs self;
     target_probs := target_probs self;
     unnormalized_logprobs := unnormalized_logprobs self;
     sample := sample self;
     sample_logprobs := sample_logprobs self;
     seqshared_sample := seqshared_sample self;
     seqshared_sample_logprobs := seqshared_sample_logprobs self;
     shared_sample := Some (fst v);
     shared_sample_logprobs := Some (snd v) |}.

(** A method that assigns attributes of [self] ends normally or with an
    exception; either way the object keeps what was assigned so far. *)
Definition outcome : Type := result unit * SoftmaxLayer.

(** Reading a variable that no assignment of the function, no argument
    and no import of the module binds. *)
Definition read_unbound {A} (name : string) : result A :=
  Raise (NameError name).

(** [layer_input] of [create_structure] (lines 65-66). *)
Definition layer_input (self : SoftmaxLayer) : result tensor3 :=
  concatenate_axis2 (map Input.output (_input_layers self)).

Section CreateStructure.
(** [self._tensor_preact(layer_input, 'input')] (line 67): the inherited
    method reads the attributes of the base class and returns the
    pre-activation, or raises. *)
Variable _tensor_preact :
  BasicLayer Input.t -> tensor3 -> string -> result tensor3.
(** The inherited sampling helpers (lines 97-104): each reads the layer
    and the layer input, and returns its tensors or raises. *)
Variable _get_unnormalized_logprobs :
  SoftmaxLayer -> tensor3 -> result SV.
Variables _get_sample_tensors _get_seqshared_sample_tensors
          _get_shared_sample_tensors :
  SoftmaxLayer -> tensor3 -> result (SV * SV).

Notation "'try' x ← e 'or' self ; k" :=
  (match e with Ok x => k | Raise err => (Raise err, self) end)
  (at level 10, x name, e at level 100, self at level 9,
   k at level 200, only parsing).

(** [SoftmaxLayer.create_structure] (lines 47-104). *)
Definition create_structure (self : SoftmaxLayer) : outcome :=
  try layer_input ← layer_input self or self;
  try preact ← _tensor_preact (base self) layer_input "input" or self;
  let num_time_steps := nrows layer_input in
  let num_sequences := ncols layer_input in
  let preact :=
    unflatten (num_time_steps * num_sequences)
              (output_size (base self)) (flatten3 preact) in
  try preact ←
    (if exclude_unk (_network self)
     then (* tensor.set_subtensor(output_prob[:, self._unk_id], ...) *)
          read_unbound "output_prob"
     else Ok preact) or self;
  let output_probs := softmax preact in
  let self :=
    set_output_probs self
      (unflatten3 num_time_steps num_sequences
                  (output_size (base self)) (flatten2 output_probs)) in
  let element_ids := seq 0 (num_time_steps * num_sequences) in
  let target_class_ids :=
    flatten2 (target_class_ids (_network self)) in
  let target_probs :=
    take_pairs output_probs element_ids target_class_ids in
  let self :=
    set_target_probs self
      (unflatten num_time_steps num_sequences target_probs) in
  try u ← _get_unnormalized_logprobs self layer_input or self;
  let self := set_unnormalized_logprobs self u in
  try s ← _get_sample_tensors self layer_input or self;
  let self := set_sample self s in
  try s ← _get_seqshared_sample_tensors self layer_input or self;
  let self := set_seqshared_sample self s in
  try s ← _get_shared_sample_tensors self layer_input or self;
  let self := set_shared_sample self s in
  (Ok (), self).
End CreateStructure.
End Layer.

Arguments base {SV}.
Arguments _input_layers {SV}.
Arguments _network {SV}.
Arguments _unk_id {SV}.
Arguments output_probs {SV}.
Arguments target_probs {SV}.
Arguments unnormalized_logprobs {SV}.
Arguments sample {SV}.
Arguments sample_logprobs {SV}.
Arguments seqshared_sample {SV}.
Arguments seqshared_sample_logprobs {SV}.
Arguments shared_sample {SV}.
Arguments shared_sample_logprobs {SV}.
Arguments layer_input {SV}.
Arguments create_structure {SV}.
Arguments __init__ {SV Args rng}.

End softmaxlayer.
Import softmaxlayer.

(* ===================================================================== *)
(** * Concrete layers, used to run the definitions *)
(* ===================================================================== *)

Module Examples.

(** A generator that needs no randomness: every entry is the scale (1
    without a scale), and the state counts the draws. *)
Definition const_weight (input_size output_size : nat) (scale : option R)
    (g : nat) : matrix * nat :=
  (replicate input_size
     (replicate output_size (match scale with Some x => x | None => 1%R end)),
   S g).

(** Two input layers of sizes 1 and 2 over one time step and two
    sequences. *)
Definition in_a : Input.t :=
  Input.mk "a" 1 [[[1%R]; [2%R]]].
Definition in_b : Input.t :=
  Input.mk "b" 2 [[[3%R; 4%R]; [5%R; 6%R]]].

Definition vocab : Vocabulary :=
  mkVocabulary (<["<unk>" := 0]> (<["the" := 1]> ∅)).

Definition net (exclude_unk : bool) : Network :=
  mkNetwork None vocab exclude_unk [[1; 0]].

(** A bare layer named [out] with two outputs, as [BasicLayer.__init__]
    leaves it. *)
Definition bare : BasicLayer Input.t :=
  mkBasicLayer "out" [in_a; in_b] 2 false false ∅ None.

(** Parameters under the keys that [BasicLayer._tensor_preact] reads. *)
Definition weight : matrix := [[1%R; 0%R]; [0%R; 1%R]; [1%R; 1%R]].
Definition bias : vector := [0%R; 1%R].
Definition dotted_params : gmap string ndarray :=
  <["out.input.W" := Arr2 weight]> (<["out.input.b" := Arr1 bias]> ∅).

(** The same parameters under the keys that [__init__] declares. *)
Definition slashed_params : gmap string ndarray :=
  <["out.input/W" := Arr2 weight]> (<["out.input/b" := Arr1 bias]> ∅).

(** A softmax layer over [in_a] and [in_b] with [params] set. *)
Definition layer (exclude_unk : bool) (params : gmap string ndarray)
  : SoftmaxLayer unit :=
  mkSoftmaxLayer unit (set_params bare params) [in_a; in_b]
    (net exclude_unk) 0
    None None None None None None None None None.

(** Stand-ins for what [SoftmaxLayer] inherits, to run its methods: the
    methods of [BasicLayer] for the constructor, the declarations and the
    pre-activation, and sampling helpers that return a token. *)
Definition super_init (args : Network * string * list Input.t * nat)
  : result (BasicLayer Input.t * list Input.t * Network) :=
  let '(network, layer_name, inputs, size) := args in
  self ← basiclayer.__init__ layer_name inputs size false false;
  mret (self, inputs, network).
Definition init_weight (self : BasicLayer Input.t) (param_name : string)
    (shape : nat * nat) (scale : option R) (g : nat)
  : result (BasicLayer Input.t * nat) :=
  _init_random_weight nat const_weight self param_name
    (fst shape) (snd shape) scale 1 g.
Definition init_bias (self : BasicLayer Input.t) (param_name : string)
    (size : nat) (value : option vector) : result (BasicLayer Input.t) :=
  _init_bias self param_name size
    (match value with None => BNone | Some a => BArray a end).
Definition tensor_preact (self : BasicLayer Input.t) (x : tensor3)
    (param_name : string) : result tensor3 :=
  _tensor_preact self x param_name.
Definition unnormalized (self : SoftmaxLayer unit) (x : tensor3)
  : result unit := Ok ().
Definition sampler (self : SoftmaxLayer unit) (x : tensor3)
  : result (unit * unit) := Ok ((), ()).

Definition init (network : Network) (layer_name : string)
    (inputs : list Input.t) (size : nat)
  : result (SoftmaxLayer unit * nat) :=
  __init__ super_init init_weight init_bias
    (network, layer_name, inputs, size) 0.

Definition run (self : SoftmaxLayer unit) : outcome unit :=
  create_structure tensor_preact unnormalized sampler sampler sampler self.

(** A helper that raises, and layers that cannot build their
    pre-activation: one on which [set_params] was never called, and two
    without input layers. *)
Definition failing_unnormalized (self : SoftmaxLayer unit) (x : tensor3)
  : result unit := Raise (ValueError "no noise distribution").
Definition unset_layer : SoftmaxLayer unit :=
  mkSoftmaxLayer unit bare [in_a; in_b] (net false) 0
    None None None None None None None None None.
Definition no_input_layer (exclude_unk : bool) : SoftmaxLayer unit :=
  mkSoftmaxLayer unit
    (mkBasicLayer "out" [] 2 false false ∅ (Some dotted_params)) []
    (net exclude_unk) 0
    None None None None None None None None None.


End Examples.

(* ===================================================================== *)
(** * Facts about the array operations *)
(* ===================================================================== *)

Section ArrayFacts.
Context {A : Type}.
Implicit Types (rows : list (list A)) (data : list A).

Lemma has_shape_spec r c rows :
  has_shape r c rows = true <->
  length rows = r /\ Forall (fun row => length row = c) rows.
Proof.
  unfold has_shape. rewrite andb_true_iff, Nat.eqb_eq, forallb_forall.
  rewrite Forall_forall. split; intros [Hl Hr]; split; auto; intros x Hx.
  - apply Nat.eqb_eq, Hr. by apply list_elem_of_In.
  - apply Nat.eqb_eq, Hr. by apply list_elem_of_In.
Qed.

Lemma length_concat_uniform c rows :
  Forall (fun row => length row = c) rows ->
  length (concat rows) = length rows * c.
Proof.
  induction 1 as [|row rows Hrow _ IH]; simpl; [done|].
  rewrite length_app, IH, Hrow. lia.
Qed.


End ArrayFacts.







Lemma nth_zip_with {A B C} (f : A -> B -> C) (x : list A) (y : list B)
    i da db dc :
  i < length x -> i < length y ->
  nth i (zip_with f x y) dc = f (nth i x da) (nth i y db).
Proof.
  revert y i. induction x as [|a x IH]; intros [|b y] i; simpl; try lia.
  destruct i; [done|]. intros. apply IH; lia.
Qed.

(** ** Softmax *)


(* ===================================================================== *)
(** * [BasicLayer]: parameter declaration and retrieval *)
(* ===================================================================== *)

Lemma bind_Ok {A B} (r : result A) (f : A -> result B) b :
  (r ≫= f) = Ok b -> exists a, r = Ok a /\ f a = Ok b.
Proof. destruct r as [a|e]; simpl; [eauto|discriminate]. Qed.

Section Draw.
Variable rng : Type.
Variable gen : rng -> matrix * rng.

Lemma draw_length count g : length (fst (draw rng gen count g)) = count.
Proof.
  revert g. induction count as [|n IH]; intros g; simpl; [done|].
  destruct (gen g) as [m g1]. specialize (IH g1).
  destruct (draw rng gen n g1) as [ms g2]. simpl in *. by rewrite IH.
Qed.

(** Every block of a draw is an output of the generator. *)
Lemma draw_Forall (P : matrix -> Prop) count g :
  (forall g0, P (fst (gen g0))) -> Forall P (fst (draw rng gen count g)).
Proof.
  intros HP. revert g. induction count as [|n IH]; intros g; simpl.
  - constructor.
  - pose proof (HP g) as Hm. destruct (gen g) as [m g1].
    specialize (IH g1). destruct (draw rng gen n g1) as [ms g2].
    simpl in *. by constructor.
Qed.
End Draw.

(** [hstack_all] succeeds on blocks of equal height, and row [r] of the
    result is row [r] of every block in turn. *)
Lemma hstack_all_rows i (ms : list matrix) : forall acc : matrix,
  length acc = i -> Forall (fun b : matrix => length b = i) ms ->
  exists m : matrix,
    hstack_all acc ms = Ok m /\ length m = i /\
    forall r, r < i ->
      nth r m [] = nth r acc [] ++ concat (map (fun b : matrix => nth r b []) ms).
Proof.
  induction ms as [|b ms IH]; intros acc Hacc Hms.
  - exists acc. simpl. split; [done|]. split; [done|].
    intros. by rewrite app_nil_r.
  - inversion Hms as [|? ? Hb Hms']; subst. simpl. unfold hstack.
    rewrite Hb, Nat.eqb_refl. simpl.
    destruct (IH (zip_with app acc b)) as (m & Hm & Hlen & Hrows).
    + rewrite length_zip_with. lia.
    + done.
    + exists m. split; [done|]. split; [done|]. intros r Hr.
      rewrite Hrows by done.
      rewrite (nth_zip_with app acc b r [] [] []) by lia.
      by rewrite <- app_assoc.
Qed.

Lemma concatenate_axis1_rows i o (blocks : list matrix) :
  blocks <> [] ->
  Forall (fun b : matrix => has_shape i o b = true) blocks ->
  exists m : matrix,
    concatenate_axis1 blocks = Ok m /\
    has_shape i (length blocks * o) m = true /\
    forall r, r < i ->
      nth r m [] = concat (map (fun b : matrix => nth r b []) blocks).
Proof.
  intros Hne Hall. destruct blocks as [|b ms]; [done|]. clear Hne.
  inversion Hall as [|? ? Hb Hms]; subst.
  apply has_shape_spec in Hb as [Hbl Hbr].
  assert (Forall (fun b : matrix => length b = i) ms) as Hms'.
  { eapply Forall_impl; [exact Hms|]. intros ? Hx.
    by apply has_shape_spec in Hx as [? _]. }
  destruct (hstack_all_rows i ms b Hbl Hms') as (m & Hm & Hlen & Hrows).
  exists m. split; [exact Hm|]. split; [|intros r Hr; by rewrite Hrows].
  apply has_shape_spec. split; [done|].
  apply (Forall_nth _ []). intros r Hr. rewrite Hlen in Hr.
  rewrite Hrows by done.
  change (nth r b [] ++ concat (map (fun b0 : matrix => nth r b0 []) ms))
    with (concat (map (fun b0 : matrix => nth r b0 []) (b :: ms))).
  rewrite (length_concat_uniform o).
  - by rewrite length_map.
  - apply Forall_map. eapply Forall_impl; [exact Hall|]. intros x Hx. simpl.
    apply has_shape_spec in Hx as [Hxl Hxr].
    apply (proj1 (Forall_nth (fun row : vector => length row = o) [] x) Hxr).
    lia.
Qed.

Section BasicLayerFacts.
Context {L : Type} `{Named L}.
Variable rng : Type.
Variables random_weight orthogonal_weight :
  nat -> nat -> option R -> rng -> matrix * rng.

Lemma get_param_stored (self : BasicLayer L) key p v :
  key = name self +:+ "." +:+ p ->
  _get_param
    (set_params (store_init_value self key v)
       (param_init_values (store_init_value self key v))) p = Ok v.
Proof.
  intros ->. unfold _get_param, param_key, getitem; simpl.
  by rewrite lookup_insert_eq.
Qed.

Lemma init_weight_declares gen (self self' : BasicLayer L) p count g g' :
  (let '(blocks, g1) := draw rng gen count g in
   value ← concatenate_axis1 blocks;
   mret (store_init_value self (param_key self p) (Arr2 value), g1))
  = Ok (self', g') ->
  exists v,
    self' = store_init_value self (name self +:+ "." +:+ p) v /\
    _get_param (set_params self' (param_init_values self')) p = Ok v.
Proof.
  destruct (draw rng gen count g) as [blocks g1]. intros Hrun.
  apply bind_Ok in Hrun as (value & _ & Hret). injection Hret as <- <-.
  exists (Arr2 value). split; [done|]. by apply get_param_stored.
Qed.

Lemma init_bias_declares (self self' : BasicLayer L) p size value :
  _init_bias self p size value = Ok self' ->
  exists v,
    self' = store_init_value self (name self +:+ "." +:+ p) v /\
    _get_param (set_params self' (param_init_values self')) p = Ok v.
Proof.
  intros Hrun. unfold _init_bias in Hrun.
  apply bind_Ok in Hrun as (subvectors & _ & Hrun).
  apply bind_Ok in Hrun as (vec & _ & Hret). injection Hret as <-.
  exists (Arr1 vec). split; [done|]. by apply get_param_stored.
Qed.

Lemma mapM_make_subvector size (vs : list subvector_value) :
  Forall (fun v => match v with SArray _ => False | _ => True end) vs ->
  mapM (make_subvector size) vs
  = Ok (map (fun v => match v with
                      | SFloat x => full size x
                      | _ => zeros size
                      end) vs).
Proof.
  induction 1 as [|v vs Hv _ IH]; [done|].
  simpl. rewrite IH. by destruct v.
Qed.

(** A weight declaration with at least one block, from a generator that
    returns blocks of the requested shape: the call returns, and what it
    stores is the concatenation of the blocks it drew. *)
Lemma init_weight_total gen (self : BasicLayer L) p i o count g :
  (forall g0, has_shape i o (fst (gen g0)) = true) ->
  1 <= count ->
  exists m : matrix,
    concatenate_axis1 (fst (draw rng gen count g)) = Ok m /\
    (let '(blocks, g1) := draw rng gen count g in
     value ← concatenate_axis1 blocks;
     mret (store_init_value self (param_key self p) (Arr2 value), g1))
    = Ok (store_init_value self (name self +:+ "." +:+ p) (Arr2 m),
          snd (draw rng gen count g)) /\
    _get_param
      (set_params
         (store_init_value self (name self +:+ "." +:+ p) (Arr2 m))
         (param_init_values
            (store_init_value self (name self +:+ "." +:+ p) (Arr2 m))))
      p = Ok (Arr2 m).
Proof.
  intros Hgen Hcount.
  pose proof (draw_length rng gen count g) as Hlen.
  pose proof (draw_Forall rng gen (fun b => has_shape i o b = true)
                count g Hgen) as Hall.
  destruct (draw rng gen count g) as [blocks g1]. simpl in *.
  destruct (concatenate_axis1_rows i o blocks) as (m & Hm & _).
  - intros ->. simpl in Hlen. lia.
  - exact Hall.
  - exists m. split; [exact Hm|]. rewrite Hm. simpl.
    split; [done|]. by apply get_param_stored.
Qed.

(** C5 (amended).  Parameter names are prefixed with the layer name.
    [_init_random_weight] and [_init_orthogonal_weight], called with
    [count >= 1] and a generator that returns blocks of the requested
    shape, and [_init_bias], called with [None], a float or a non-empty
    list, return and change the layer only in that [param_init_values]
    holds the generated initial value under the key [<layer name>.<p>];
    after [set_params(params)], [_get_param(p)] is exactly
    [params['<layer name>.' + p]]; so the value that was declared comes
    back from [_get_param(p)] once the declared values are the
    parameters. *)
Theorem param_name_prefix_round_trip (self : BasicLayer L) (p : string) :
  (forall i o scale count g,
      (forall s g0, has_shape i o (fst (random_weight i o s g0)) = true) ->
      1 <= count ->
      exists m : matrix,
        concatenate_axis1
          (fst (draw rng (random_weight i o (Some 0.01%R)) count g))
        = Ok m /\
        _init_random_weight rng random_weight self p i o scale count g
        = Ok (store_init_value self (name self +:+ "." +:+ p) (Arr2 m),
              snd (draw rng (random_weight i o (Some 0.01%R)) count g)) /\
        _get_param
          (set_params
             (store_init_value self (name self +:+ "." +:+ p) (Arr2 m))
             (param_init_values
                (store_init_value self (name self +:+ "." +:+ p) (Arr2 m))))
          p = Ok (Arr2 m)) /\
  (forall i o scale count g,
      (forall s g0, has_shape i o (fst (orthogonal_weight i o s g0)) = true) ->
      1 <= count ->
      exists m : matrix,
        concatenate_axis1
          (fst (draw rng (orthogonal_weight i o (Some 0.01%R)) count g))
        = Ok m /\
        _init_orthogonal_weight rng orthogonal_weight self p i o scale count g
        = Ok (store_init_value self (name self +:+ "." +:+ p) (Arr2 m),
              snd (draw rng (orthogonal_weight i o (Some 0.01%R)) count g)) /\
        _get_param
          (set_params
             (store_init_value self (name self +:+ "." +:+ p) (Arr2 m))
             (param_init_values
                (store_init_value self (name self +:+ "." +:+ p) (Arr2 m))))
          p = Ok (Arr2 m)) /\
  (forall size value,
      (forall a, value <> BArray a) -> value <> BList [] ->
      exists vec : vector,
        vec = concat (map (fun v => match v with
                                    | SFloat x => full size x
                                    | _ => zeros size
                                    end) (bias_values value)) /\
        _init_bias self p size value
        = Ok (store_init_value self (name self +:+ "." +:+ p) (Arr1 vec)) /\
        _get_param
          (set_params
             (store_init_value self (name self +:+ "." +:+ p) (Arr1 vec))
             (param_init_values
                (store_init_value self (name self +:+ "." +:+ p)
                   (Arr1 vec))))
          p = Ok (Arr1 vec)) /\
  (forall params,
      _get_param (set_params self params) p
      = getitem params (name self +:+ "." +:+ p)).
Proof.
  split; [|split; [|split]].
  - intros i o scale count g Hgen Hcount.
    apply (init_weight_total _ self p i o count g); [apply Hgen|exact Hcount].
  - intros i o scale count g Hgen Hcount.
    apply (init_weight_total _ self p i o count g); [apply Hgen|exact Hcount].
  - intros size value Harray Hlist. eexists. split; [reflexivity|].
    split; [|by apply get_param_stored].
    unfold _init_bias. rewrite mapM_make_subvector.
    + by destruct value as [|x|[|o xs]|a].
    + destruct value as [|x|xs|a]; simpl.
      * by repeat constructor.
      * by repeat constructor.
      * apply Forall_map, Forall_forall. by intros [x|] _.
      * by destruct (Harray a).
  - intros params. reflexivity.
Qed.

(** The blocks of a weight matrix, drawn with the literal scale. *)
Lemma init_weight_blocks gen (self : BasicLayer L) p i o count g :
  (forall g0, has_shape i o (fst (gen g0)) = true) ->
  1 <= count ->
  exists (m : matrix),
    (let '(blocks, g1) := draw rng gen count g in
     value ← concatenate_axis1 blocks;
     mret (store_init_value self (param_key self p) (Arr2 value), g1))
    = Ok (store_init_value self (name self +:+ "." +:+ p) (Arr2 m),
          snd (draw rng gen count g)) /\
    has_shape i (count * o) m = true /\
    forall r, r < i ->
      nth r m [] =
      concat (map (fun b : matrix => nth r b [])
                  (fst (draw rng gen count g))).
Proof.
  intros Hgen Hcount.
  pose proof (draw_length rng gen count g) as Hlen.
  pose proof (draw_Forall rng gen (fun b => has_shape i o b = true)
                count g Hgen) as Hall.
  destruct (draw rng gen count g) as [blocks g1]. simpl in *.
  destruct (concatenate_axis1_rows i o blocks) as (m & Hm & Hshape & Hrows).
  - intros ->. simpl in Hlen. lia.
  - exact Hall.
  - exists m. rewrite Hm. simpl. rewrite <- Hlen. done.
Qed.

(** C8 (amended).  For every call of [_init_random_weight] or
    [_init_orthogonal_weight] the [scale] argument has no effect: two calls
    that differ in it only have the same outcome.  For [count >= 1], and a
    generator that returns [input_size] rows of [output_size] entries, the
    call stores a matrix whose blocks were all generated with scale 0.01,
    that has [input_size] rows of [count * output_size] entries, and whose
    rows are the rows of the [count] blocks one after the other. *)
Theorem init_weight_ignores_scale (self : BasicLayer L) (p : string)
    (i o : nat) (scale scale' : option R) (count : nat) (g : rng) :
  _init_random_weight rng random_weight self p i o scale count g
  = _init_random_weight rng random_weight self p i o scale' count g /\
  _init_orthogonal_weight rng orthogonal_weight self p i o scale count g
  = _init_orthogonal_weight rng orthogonal_weight self p i o scale' count g /\
  ((forall s g0, has_shape i o (fst (random_weight i o s g0)) = true) ->
   1 <= count ->
   exists m : matrix,
     _init_random_weight rng random_weight self p i o scale count g
     = Ok (store_init_value self (name self +:+ "." +:+ p) (Arr2 m),
           snd (draw rng (random_weight i o (Some 0.01%R)) count g)) /\
     has_shape i (count * o) m = true /\
     forall r, r < i ->
       nth r m [] =
       concat (map (fun b : matrix => nth r b [])
                (fst (draw rng (random_weight i o (Some 0.01%R)) count g))))
  /\
  ((forall s g0, has_shape i o (fst (orthogonal_weight i o s g0)) = true) ->
   1 <= count ->
   exists m : matrix,
     _init_orthogonal_weight rng orthogonal_weight self p i o scale count g
     = Ok (store_init_value self (name self +:+ "." +:+ p) (Arr2 m),
           snd (draw rng (orthogonal_weight i o (Some 0.01%R)) count g)) /\
     has_shape i (count * o) m = true /\
     forall r, r < i ->
       nth r m [] =
       concat (map (fun b : matrix => nth r b [])
                (fst (draw rng (orthogonal_weight i o (Some 0.01%R))
                        count g)))).
Proof.
  split; [reflexivity|]. split; [reflexivity|]. split.
  - intros Hrand Hcount.
    apply init_weight_blocks; [apply Hrand|exact Hcount].
  - intros Horth Hcount.
    apply init_weight_blocks; [apply Horth|exact Hcount].
Qed.

(** C9 (amended).  [_init_bias(param_name, size, value)] stores under
    [<layer name>.<param_name>]: the zero vector of length [size] when
    [value] is [None]; the vector of length [size] filled with [value] when
    it is a float; and, when it is a list of [k >= 1] elements, the
    concatenation of [k] subvectors of length [size], zero for a [None]
    element and constant for a float, of total length [k * size]. *)
Theorem init_bias_stores (self : BasicLayer L) (p : string) (size : nat) :
  (_init_bias self p size BNone
   = Ok (store_init_value self (name self +:+ "." +:+ p)
           (Arr1 (zeros size))) /\
   length (zeros size) = size) /\
  (forall x,
      _init_bias self p size (BFloat x)
      = Ok (store_init_value self (name self +:+ "." +:+ p)
              (Arr1 (full size x))) /\
      length (full size x) = size) /\
  (forall xs, xs <> [] ->
      _init_bias self p size (BList xs)
      = Ok (store_init_value self (name self +:+ "." +:+ p)
              (Arr1 (concat (map (subvector_of size) xs)))) /\
      Forall (fun sub => length sub = size) (map (subvector_of size) xs) /\
      length (map (subvector_of size) xs) = length xs /\
      length (concat (map (subvector_of size) xs)) = length xs * size).
Proof.
  assert (Hsub : forall xs,
    Forall (fun sub => length sub = size) (map (subvector_of size) xs)).
  { intros xs. apply Forall_map, Forall_forall. intros [x|] _; simpl;
      apply length_replicate. }
  split; [|split].
  - split; [|apply length_replicate]. unfold _init_bias; simpl.
    by rewrite app_nil_r.
  - intros x. split; [|apply length_replicate]. unfold _init_bias; simpl.
    by rewrite app_nil_r.
  - intros xs Hne. split; [|split; [apply Hsub|split]].
    + unfold _init_bias. simpl bias_values.
      rewrite mapM_make_subvector.
      2:{ apply Forall_map, Forall_forall. by intros [x|] _. }
      rewrite map_map.
      replace (map _ xs) with (map (subvector_of size) xs).
      2:{ apply map_ext. by intros [x|]. }
      destruct xs as [|o xs]; [done|]. reflexivity.
    + apply length_map.
    + rewrite (length_concat_uniform size) by apply Hsub.
      by rewrite length_map.
Qed.

End BasicLayerFacts.

Lemma param_name_prefix_round_trip_witness :
  1 <= 2 /\ BList [None; Some 1%R] <> BList [] /\
  (exists m : matrix,
      _init_random_weight nat Examples.const_weight Examples.bare "input/W"
        3 2 None 2 0
      = Ok (store_init_value Examples.bare "out.input/W" (Arr2 m), 2) /\
      _get_param
        (set_params
           (store_init_value Examples.bare "out.input/W" (Arr2 m))
           (param_init_values
              (store_init_value Examples.bare "out.input/W" (Arr2 m))))
        "input/W" = Ok (Arr2 m)) /\
  _init_bias Examples.bare "input/b" 2 (BList [None; Some 1%R])
  = Ok (store_init_value Examples.bare "out.input/b"
          (Arr1 [0%R; 0%R; 1%R; 1%R])).
Proof.
  assert (Hshape : forall (s : option R) (g0 : nat),
             has_shape 3 2 (fst (Examples.const_weight 3 2 s g0)) = true)
    by (intros; reflexivity).
  destruct (param_name_prefix_round_trip nat Examples.const_weight
              Examples.const_weight Examples.bare "input/W")
    as (Hweight & _ & _ & _).
  destruct (Hweight 3 2 None 2 0 Hshape ltac:(lia)) as (m & _ & Hrun & Hget).
  destruct (param_name_prefix_round_trip nat Examples.const_weight
              Examples.const_weight Examples.bare "input/b")
    as (_ & _ & Hbias & _).
  destruct (Hbias 2 (BList [None; Some 1%R]) ltac:(discriminate)
              ltac:(discriminate)) as (vec & -> & Hstore & _).
  split; [lia|]. split; [discriminate|]. split.
  - exists m. split; [exact Hrun|exact Hget].
  - exact Hstore.
Defined.

(** C5 fails where a declaration has nothing to concatenate: with
    [count = 0], or with the empty list as bias value, numpy refuses the
    empty list of arrays, the method raises and no value is stored under
    the key. *)
Lemma declaration_of_nothing_raises :
  _init_random_weight nat Examples.const_weight Examples.bare "input/W"
    3 2 None 0 0
  = Raise (ValueError "need at least one array to concatenate") /\
  _init_orthogonal_weight nat Examples.const_weight Examples.bare "input/W"
    3 2 None 0 0
  = Raise (ValueError "need at least one array to concatenate") /\
  _init_bias Examples.bare "input/b" 2 (BList [])
  = Raise (ValueError "need at least one array to concatenate") /\
  ~ (exists self' g',
        _init_orthogonal_weight nat Examples.const_weight Examples.bare
          "input/W" 3 2 None 0 0 = Ok (self', g') /\
        is_Some (param_init_values self' !! "out.input/W")).
Proof.
  split; [reflexivity|]. split; [reflexivity|]. split; [reflexivity|].
  intros (self' & g' & Hrun & _). discriminate Hrun.
Qed.

Lemma init_weight_ignores_scale_witness :
  1 <= 2 /\
  _init_random_weight nat Examples.const_weight Examples.bare "input/W"
    3 2 None 2 0
  = _init_random_weight nat Examples.const_weight Examples.bare "input/W"
      3 2 (Some 1%R) 2 0 /\
  exists m : matrix,
    _init_random_weight nat Examples.const_weight Examples.bare "input/W"
      3 2 None 2 0
    = Ok (store_init_value Examples.bare "out.input/W" (Arr2 m), 2) /\
    has_shape 3 (2 * 2) m = true.
Proof.
  assert (Hshape : forall (s : option R) (g0 : nat),
             has_shape 3 2 (fst (Examples.const_weight 3 2 s g0)) = true)
    by (intros; reflexivity).
  destruct (init_weight_ignores_scale nat Examples.const_weight
              Examples.const_weight Examples.bare "input/W" 3 2
              None (Some 1%R) 2 0)
    as (Hsame & _ & Hstored & _).
  destruct (Hstored Hshape ltac:(lia)) as (m & Hrun & Hm & _).
  split; [lia|]. split; [exact Hsame|]. exists m. split; [exact Hrun|exact Hm].
Defined.

(** With [count = 0] there is no block to concatenate: numpy refuses the
    empty list and nothing is stored, whereas C8 gives the stored matrix
    the shape [(input_size, 0)]. *)
Lemma init_weight_count_zero_raises :
  _init_random_weight nat Examples.const_weight Examples.bare "input/W"
    3 2 None 0 0
  = Raise (ValueError "need at least one array to concatenate") /\
  _init_orthogonal_weight nat Examples.const_weight Examples.bare "input/W"
    3 2 None 0 0
  = Raise (ValueError "need at least one array to concatenate") /\
  ~ (exists self' g' (m : matrix),
        _init_random_weight nat Examples.const_weight Examples.bare "input/W"
          3 2 None 0 0 = Ok (self', g') /\
        param_init_values self' !! "out.input/W" = Some (Arr2 m) /\
        has_shape 3 (0 * 2) m = true).
Proof.
  split; [reflexivity|]. split; [reflexivity|].
  intros (self' & g' & m & Hrun & _). discriminate Hrun.
Qed.

Lemma init_bias_stores_witness :
  [None; Some 1%R] <> [] /\
  _init_bias Examples.bare "input/b" 2 (BList [None; Some 1%R])
  = Ok (store_init_value Examples.bare "out.input/b"
          (Arr1 [0%R; 0%R; 1%R; 1%R])) /\
  length (concat (map (subvector_of 2) [None; Some 1%R])) = 2 * 2.
Proof.
  destruct (init_bias_stores Examples.bare "input/b" 2) as (_ & _ & Hlist).
  destruct (Hlist [None; Some 1%R] ltac:(discriminate))
    as (Hrun & _ & _ & Hlen).
  split; [discriminate|]. split; [exact Hrun|exact Hlen].
Defined.

(** With the empty list as [value] there is no subvector to concatenate:
    numpy refuses the empty list and nothing is stored, whereas C9 has the
    concatenation of [k = 0] subvectors stored. *)
Lemma init_bias_empty_list_raises :
  _init_bias Examples.bare "input/b" 2 (BList [])
  = Raise (ValueError "need at least one array to concatenate") /\
  ~ (exists self',
        _init_bias Examples.bare "input/b" 2 (BList []) = Ok self' /\
        param_init_values self' !! "out.input/b"
        = Some (Arr1 (concat (map (subvector_of 2) [])))).
Proof.
  split; [reflexivity|]. intros (self' & Hrun & _). discriminate Hrun.
Qed.

(* ===================================================================== *)
(** * [BasicLayer]: the input-layer relation *)
(* ===================================================================== *)








(* ===================================================================== *)
(** * [SoftmaxLayer]: the layer input *)
(* ===================================================================== *)





(* ===================================================================== *)
(** * [SoftmaxLayer.create_structure] *)
(* ===================================================================== *)






Section CreateStructureFacts.
Variable SV : Type.
Variable _tensor_preact :
  BasicLayer Input.t -> tensor3 -> string -> result tensor3.
Variable _get_unnormalized_logprobs : SoftmaxLayer SV -> tensor3 -> result SV.
Variables _get_sample_tensors _get_seqshared_sample_tensors
          _get_shared_sample_tensors :
  SoftmaxLayer SV -> tensor3 -> result (SV * SV).

Local Abbreviation create_structure :=
  (create_structure _tensor_preact _get_unnormalized_logprobs
     _get_sample_tensors _get_seqshared_sample_tensors
     _get_shared_sample_tensors).

Lemma layer_input_nonempty (self : SoftmaxLayer SV) :
  _input_layers self <> [] -> exists li, layer_input self = Ok li.
Proof.
  unfold layer_input. destruct (_input_layers self); [done|].
  intros _. by eexists.
Qed.



(** C4 (amended).  [create_structure] completes only when [exclude_unk]
    is false.  When it is true the method ends with an exception and has
    assigned no attribute, so [output_probs] is not produced; once the
    concatenation of line 65 and the inherited [_tensor_preact] of line 67
    have returned, the exception is the unbound-name error for
    [output_prob] (where one of the two raises, its exception leaves the
    method instead). *)
Theorem create_structure_exclude_unk_raises (self : SoftmaxLayer SV) :
  (exclude_unk (_network self) = true ->
   snd (create_structure self) = self /\
   (exists e, fst (create_structure self) = Raise e) /\
   (forall li pre,
       layer_input self = Ok li ->
       _tensor_preact (base self) li "input" = Ok pre ->
       create_structure self = (Raise (NameError "output_prob"), self))) /\
  (fst (create_structure self) = Ok () ->
   exclude_unk (_network self) = false).
Proof.
  assert (Hraise : exclude_unk (_network self) = true ->
    snd (create_structure self) = self /\
    (exists e, fst (create_structure self) = Raise e) /\
    (forall li pre,
        layer_input self = Ok li ->
        _tensor_preact (base self) li "input" = Ok pre ->
        create_structure self = (Raise (NameError "output_prob"), self))).
  { intros Hunk.
    assert (Hpast : forall li pre,
      layer_input self = Ok li ->
      _tensor_preact (base self) li "input" = Ok pre ->
      create_structure self = (Raise (NameError "output_prob"), self)).
    { intros li pre Hli Hpre. unfold softmaxlayer.create_structure.
      by rewrite Hli, Hpre, Hunk. }
    split; [|split; [|exact Hpast]].
    - destruct (layer_input self) as [li|e] eqn:Hli.
      + destruct (_tensor_preact (base self) li "input") as [pre|e] eqn:Hpre.
        * by rewrite (Hpast li pre).
        * unfold softmaxlayer.create_structure. by rewrite Hli, Hpre.
      + unfold softmaxlayer.create_structure. by rewrite Hli.
    - destruct (layer_input self) as [li|e] eqn:Hli.
      + destruct (_tensor_preact (base self) li "input") as [pre|e] eqn:Hpre.
        * rewrite (Hpast li pre) by done. by eexists.
        * unfold softmaxlayer.create_structure. rewrite Hli, Hpre.
          by eexists.
      + unfold softmaxlayer.create_structure. rewrite Hli. by eexists. }
  split; [exact Hraise|]. intros Hok.
  destruct (exclude_unk (_network self)) eqn:Hunk; [|done].
  destruct (Hraise eq_refl) as (_ & [e He] & _). congruence.
Qed.

(** C7.  After [SoftmaxLayer.__init__] the nine output attributes are all
    [None]; after a call of [create_structure] that completes all nine are
    assigned: [output_probs] and [target_probs], the unnormalized
    log-probabilities returned by [_get_unnormalized_logprobs], and the
    pairs of noise-sample tensors returned by [_get_sample_tensors],
    [_get_seqshared_sample_tensors] and [_get_shared_sample_tensors] for
    the layer input. *)
Theorem output_attributes_assigned :
  (forall (Args rng : Type) super_init _init_weight _init_bias
          (args : Args) (g g' : rng) (self : SoftmaxLayer SV),
      __init__ super_init _init_weight _init_bias args g = Ok (self, g') ->
      output_probs self = None /\ target_probs self = None /\
      unnormalized_logprobs self = None /\
      sample self = None /\ sample_logprobs self = None /\
      seqshared_sample self = None /\
      seqshared_sample_logprobs self = None /\
      shared_sample self = None /\ shared_sample_logprobs self = None) /\
  (forall self : SoftmaxLayer SV,
      fst (create_structure self) = Ok () ->
      exists li u sa sq sh,
        layer_input self = Ok li /\
        (exists s0, _get_unnormalized_logprobs s0 li = Ok u) /\
        (exists s0, _get_sample_tensors s0 li = Ok sa) /\
        (exists s0, _get_seqshared_sample_tensors s0 li = Ok sq) /\
        (exists s0, _get_shared_sample_tensors s0 li = Ok sh) /\
        is_Some (output_probs (snd (create_structure self))) /\
        is_Some (target_probs (snd (create_structure self))) /\
        unnormalized_logprobs (snd (create_structure self)) = Some u /\
        sample (snd (create_structure self)) = Some (fst sa) /\
        sample_logprobs (snd (create_structure self)) = Some (snd sa) /\
        seqshared_sample (snd (create_structure self)) = Some (fst sq) /\
        seqshared_sample_logprobs (snd (create_structure self))
        = Some (snd sq) /\
        shared_sample (snd (create_structure self)) = Some (fst sh) /\
        shared_sample_logprobs (snd (create_structure self))
        = Some (snd sh)).
Proof.
  split.
  - intros Args rng super_init _init_weight _init_bias args g g' self Hinit.
    unfold __init__ in Hinit.
    apply bind_Ok in Hinit as ([[b0 inputs] network] & _ & Hinit).
    apply bind_Ok in Hinit as ([b1 g1] & _ & Hinit).
    apply bind_Ok in Hinit as (b2 & _ & Hinit).
    apply bind_Ok in Hinit as (unk & _ & Hret).
    injection Hret as <- <-. simpl. repeat split.
  - intros self. unfold softmaxlayer.create_structure.
    destruct (layer_input self) as [li|e]; simpl; [|discriminate].
    destruct (_tensor_preact (base self) li "input") as [pre|e]; simpl;
      [|discriminate].
    destruct (exclude_unk (_network self)); simpl; [discriminate|].
    match goal with
    | |- context [_get_unnormalized_logprobs ?s0 li] =>
        destruct (_get_unnormalized_logprobs s0 li) as [u|e] eqn:Hu
    end; simpl; [|discriminate].
    match goal with
    | |- context [_get_sample_tensors ?s0 li] =>
        destruct (_get_sample_tensors s0 li) as [sa|e] eqn:Hsa
    end; simpl; [|discriminate].
    match goal with
    | |- context [_get_seqshared_sample_tensors ?s0 li] =>
        destruct (_get_seqshared_sample_tensors s0 li) as [sq|e] eqn:Hsq
    end; simpl; [|discriminate].
    match goal with
    | |- context [_get_shared_sample_tensors ?s0 li] =>
        destruct (_get_shared_sample_tensors s0 li) as [sh|e] eqn:Hsh
    end; simpl; [|discriminate].
    intros _. exists li, u, sa, sq, sh.
    split; [done|]. split; [by eexists|]. split; [by eexists|].
    split; [by eexists|]. split; [by eexists|].
    split; [by eexists|]. split; [by eexists|]. repeat split.
Qed.


(** X7.  [create_structure] fails before it assigns anything when the
    layer cannot build its pre-activation: without input layers the
    concatenation raises a value error, and whatever the inherited
    [_tensor_preact] raises for the layer input leaves the method.  In
    both cases the layer is left as it was. *)
Theorem create_structure_early_errors (self : SoftmaxLayer SV) :
  (_input_layers self = [] ->
   create_structure self
   = (Raise (ValueError "Cannot join an empty list of tensors"), self)) /\
  (forall li e,
      layer_input self = Ok li ->
      _tensor_preact (base self) li "input" = Raise e ->
      create_structure self = (Raise e, self)).
Proof.
  split.
  - intros Hnil. unfold softmaxlayer.create_structure, layer_input.
    by rewrite Hnil.
  - intros li e Hli Hpre. unfold softmaxlayer.create_structure.
    by rewrite Hli, Hpre.
Qed.

(** X8.  [create_structure] is not all-or-nothing: when the first sampling
    helper raises, the exception leaves the method, [output_probs] and
    [target_probs] are already assigned, and the seven sampling attributes
    are as they were. *)
Theorem create_structure_partial_assignment (self : SoftmaxLayer SV)
    li pre e :
  layer_input self = Ok li ->
  _tensor_preact (base self) li "input" = Ok pre ->
  exclude_unk (_network self) = false ->
  (forall s, _get_unnormalized_logprobs s li = Raise e) ->
  fst (create_structure self) = Raise e /\
  is_Some (output_probs (snd (create_structure self))) /\
  is_Some (target_probs (snd (create_structure self))) /\
  unnormalized_logprobs (snd (create_structure self))
  = unnormalized_logprobs self /\
  sample (snd (create_structure self)) = sample self /\
  sample_logprobs (snd (create_structure self)) = sample_logprobs self /\
  seqshared_sample (snd (create_structure self)) = seqshared_sample self /\
  seqshared_sample_logprobs (snd (create_structure self))
  = seqshared_sample_logprobs self /\
  shared_sample (snd (create_structure self)) = shared_sample self /\
  shared_sample_logprobs (snd (create_structure self))
  = shared_sample_logprobs self.
Proof.
  intros Hli Hpre Hunk Hraise. unfold softmaxlayer.create_structure.
  rewrite Hli, Hpre, Hunk. simpl. rewrite Hraise. simpl.
  repeat split; by eexists.
Qed.

(** X12.  With [exclude_unk] false and at least one input layer,
    [create_structure] completes whenever the inherited [_tensor_preact]
    and the four sampling helpers return. *)
Theorem create_structure_completes (self : SoftmaxLayer SV) :
  _input_layers self <> [] ->
  exclude_unk (_network self) = false ->
  (forall x, is_ok (_tensor_preact (base self) x "input") = true) ->
  (forall s x, is_ok (_get_unnormalized_logprobs s x) = true) ->
  (forall s x, is_ok (_get_sample_tensors s x) = true) ->
  (forall s x, is_ok (_get_seqshared_sample_tensors s x) = true) ->
  (forall s x, is_ok (_get_shared_sample_tensors s x) = true) ->
  fst (create_structure self) = Ok ().
Proof.
  intros [li Hli]%layer_input_nonempty Hunk H0 H1 H2 H3 H4.
  unfold softmaxlayer.create_structure. rewrite Hli.
  specialize (H0 li).
  destruct (_tensor_preact (base self) li "input") as [pre|e];
    [|discriminate].
  rewrite Hunk. simpl.
  match goal with
  | |- context [_get_unnormalized_logprobs ?s0 li] =>
      specialize (H1 s0 li); destruct (_get_unnormalized_logprobs s0 li)
  end; simpl in *; [|discriminate].
  match goal with
  | |- context [_get_sample_tensors ?s0 li] =>
      specialize (H2 s0 li); destruct (_get_sample_tensors s0 li)
  end; simpl in *; [|discriminate].
  match goal with
  | |- context [_get_seqshared_sample_tensors ?s0 li] =>
      specialize (H3 s0 li); destruct (_get_seqshared_sample_tensors s0 li)
  end; simpl in *; [|discriminate].
  match goal with
  | |- context [_get_shared_sample_tensors ?s0 li] =>
      specialize (H4 s0 li); destruct (_get_shared_sample_tensors s0 li)
  end; simpl in *; [|discriminate].
  reflexivity.
Qed.


End CreateStructureFacts.

(* ===================================================================== *)
(** * [SoftmaxLayer.__init__] *)
(* ===================================================================== *)

Section InitFacts.
Variable SV : Type.
Variables Args rng : Type.
Variable super_init :
  Args -> result (BasicLayer Input.t * list Input.t * Network).
Variable _init_weight :
  BasicLayer Input.t -> string -> nat * nat -> option R -> rng ->
  result (BasicLayer Input.t * rng).
Variable _init_bias :
  BasicLayer Input.t -> string -> nat -> option vector ->
  result (BasicLayer Input.t).

(** X13.  Where the inherited constructor and the two inherited
    declarations return, [SoftmaxLayer.__init__] returns a layer exactly
    when the vocabulary has the word [<unk>]: then [_unk_id] is the id of
    that word, and the layer has the attributes of the base class as the
    declaration of the bias left them, the input layers and the network of
    the inherited constructor, and the generator state that the
    declaration of the weight left; otherwise the constructor raises the
    key error for [<unk>]. *)
Theorem init_unk_id (args : Args) (g g1 : rng) base0 inputs network
    base1 base2 :
  super_init args = Ok (base0, inputs, network) ->
  _init_weight base0 "input/W"
    (sum_list_with Input.output_size inputs, output_size base0)
    (Some 0.01%R) g = Ok (base1, g1) ->
  match class_prior_probs network with
  | None => _init_bias base1 "input/b" (output_size base0) None
  | Some probs =>
      _init_bias base1 "input/b" (output_size base0)
        (Some (map (fun p => ln (p + 1e-10)%R) probs))
  end = Ok base2 ->
  match word_to_id (vocabulary network) !! "<unk>" with
  | Some unk =>
      exists self : SoftmaxLayer SV,
        __init__ super_init _init_weight _init_bias args g = Ok (self, g1) /\
        _unk_id self = unk /\ base self = base2 /\
        _input_layers self = inputs /\ _network self = network
  | None =>
      __init__ (SV:=SV) super_init _init_weight _init_bias args g
      = Raise (KeyError "<unk>")
  end.
Proof.
  intros Hsuper Hw Hb. unfold __init__. rewrite Hsuper. simpl.
  rewrite Hw. simpl. rewrite Hb. simpl. unfold getitem.
  destruct (word_to_id (vocabulary network) !! "<unk>") as [unk|]; [|done].
  simpl. eexists. split; [reflexivity|]. done.
Qed.

End InitFacts.

(* ===================================================================== *)
(** * The theorems on concrete layers *)
(* ===================================================================== *)

(** C1.  The claim has [create_structure] set [output_probs] to the
    softmax of the pre-activation for every network state.  At a network
    with [exclude_unk] set, over two input layers and with a weight and a
    bias that the pre-activation finds, [create_structure] raises the
    unbound-name error of line 79 instead and [output_probs] is left
    [None]. *)
Lemma create_structure_output_probs_exclude_unk :
  exclude_unk (_network (Examples.layer true Examples.dotted_params))
  = true /\
  Examples.run (Examples.layer true Examples.dotted_params)
  = (Raise (NameError "output_prob"),
     Examples.layer true Examples.dotted_params) /\
  output_probs
    (snd (Examples.run (Examples.layer true Examples.dotted_params)))
  = None.
Proof. repeat split; reflexivity. Qed.

(** C2.  The claim has [create_structure] set [target_probs] for every
    network whose target class ids are given.  At a network with
    [exclude_unk] set and target class ids of the shape of the input,
    [create_structure] raises the unbound-name error of line 79 instead and
    [target_probs] is left [None]. *)
Lemma create_structure_target_probs_exclude_unk :
  has_shape 1 2 (target_class_ids (Examples.net true)) = true /\
  Examples.run (Examples.layer true Examples.dotted_params)
  = (Raise (NameError "output_prob"),
     Examples.layer true Examples.dotted_params) /\
  target_probs
    (snd (Examples.run (Examples.layer true Examples.dotted_params)))
  = None.
Proof. repeat split; reflexivity. Qed.

Lemma create_structure_exclude_unk_raises_witness :
  exclude_unk (_network (Examples.layer true Examples.dotted_params)) = true /\
  Examples.run (Examples.layer true Examples.dotted_params)
  = (Raise (NameError "output_prob"),
     Examples.layer true Examples.dotted_params) /\
  snd (Examples.run (Examples.layer true Examples.dotted_params))
  = Examples.layer true Examples.dotted_params.
Proof.
  destruct (create_structure_exclude_unk_raises unit Examples.tensor_preact
              Examples.unnormalized
              Examples.sampler Examples.sampler Examples.sampler
              (Examples.layer true Examples.dotted_params)) as [Hraise _].
  destruct (Hraise eq_refl) as (Hself & _ & Hpast).
  split; [reflexivity|]. split; [|exact Hself].
  eapply Hpast; reflexivity.
Defined.

(** C4 fails where line 79 is not reached.  A layer without input layers
    in a network with [exclude_unk] set: the concatenation of line 65
    raises a value error, not the unbound-name error. *)
Lemma create_structure_exclude_unk_other_error :
  exclude_unk (_network (Examples.no_input_layer true)) = true /\
  Examples.run (Examples.no_input_layer true)
  = (Raise (ValueError "Cannot join an empty list of tensors"),
     Examples.no_input_layer true) /\
  fst (Examples.run (Examples.no_input_layer true))
  <> Raise (NameError "output_prob").
Proof. split; [reflexivity|]. split; [reflexivity|discriminate]. Qed.


Lemma output_attributes_assigned_witness :
  (exists self : SoftmaxLayer unit,
      Examples.init (Examples.net false) "out"
        [Examples.in_a; Examples.in_b] 2 = Ok (self, 1) /\
      output_probs self = None /\ shared_sample_logprobs self = None) /\
  fst (Examples.run (Examples.layer false Examples.dotted_params)) = Ok () /\
  is_Some (output_probs
             (snd (Examples.run
                     (Examples.layer false Examples.dotted_params)))) /\
  shared_sample_logprobs
    (snd (Examples.run (Examples.layer false Examples.dotted_params)))
  = Some ().
Proof.
  destruct (output_attributes_assigned unit Examples.tensor_preact
              Examples.unnormalized
              Examples.sampler Examples.sampler Examples.sampler)
    as [Hinit Hrun].
  split.
  - eexists. split; [reflexivity|].
    destruct (Hinit _ _ Examples.super_init Examples.init_weight
                Examples.init_bias
                (Examples.net false, "out",
                 [Examples.in_a; Examples.in_b], 2) 0 1 _ eq_refl)
      as (Hout & _ & _ & _ & _ & _ & _ & _ & Hlast).
    split; [exact Hout|exact Hlast].
  - split; [reflexivity|].
    destruct (Hrun (Examples.layer false Examples.dotted_params) eq_refl)
      as (li & u & sa & sq & [sh1 sh2] & _ & _ & _ & _ & _ & Hout & _ & _ & _
          & _ & _ & _ & _ & Hlast).
    split; [exact Hout|]. destruct sh2. exact Hlast.
Defined.

Lemma create_structure_early_errors_witness :
  Examples.run (Examples.no_input_layer false)
  = (Raise (ValueError "Cannot join an empty list of tensors"),
     Examples.no_input_layer false) /\
  Examples.run Examples.unset_layer
  = (Raise (AttributeError "_params"), Examples.unset_layer).
Proof.
  split.
  - destruct (create_structure_early_errors unit Examples.tensor_preact
                Examples.unnormalized
                Examples.sampler Examples.sampler Examples.sampler
                (Examples.no_input_layer false)) as (Hempty & _).
    exact (Hempty eq_refl).
  - destruct (create_structure_early_errors unit Examples.tensor_preact
                Examples.unnormalized
                Examples.sampler Examples.sampler Examples.sampler
                Examples.unset_layer) as (_ & Hpre).
    exact (Hpre _ _ eq_refl eq_refl).
Defined.

Lemma create_structure_partial_assignment_witness :
  fst (create_structure Examples.tensor_preact Examples.failing_unnormalized
         Examples.sampler Examples.sampler Examples.sampler
         (Examples.layer false Examples.dotted_params))
  = Raise (ValueError "no noise distribution") /\
  is_Some (output_probs
             (snd (create_structure Examples.tensor_preact
                     Examples.failing_unnormalized
                     Examples.sampler Examples.sampler Examples.sampler
                     (Examples.layer false Examples.dotted_params)))).
Proof.
  edestruct (create_structure_partial_assignment unit
               Examples.tensor_preact
               Examples.failing_unnormalized Examples.sampler
               Examples.sampler Examples.sampler
               (Examples.layer false Examples.dotted_params))
    as (Hraise & Hout & _).
  - reflexivity.
  - reflexivity.
  - reflexivity.
  - intros s. reflexivity.
  - split; [exact Hraise|exact Hout].
Defined.

Lemma create_structure_completes_witness :
  fst (Examples.run (Examples.layer false Examples.dotted_params)) = Ok ().
Proof.
  apply (create_structure_completes unit Examples.tensor_preact
           Examples.unnormalized
           Examples.sampler Examples.sampler Examples.sampler
           (Examples.layer false Examples.dotted_params)).
  - discriminate.
  - reflexivity.
  - intros; reflexivity.
  - intros; reflexivity.
  - intros; reflexivity.
  - intros; reflexivity.
  - intros; reflexivity.
Defined.


Lemma init_unk_id_witness :
  exists self : SoftmaxLayer unit,
    Examples.init (Examples.net false) "out"
      [Examples.in_a; Examples.in_b] 2 = Ok (self, 1) /\
    _unk_id self = 0 /\
    _input_layers self = [Examples.in_a; Examples.in_b].
Proof.
  destruct (init_unk_id unit _ _ Examples.super_init Examples.init_weight
              Examples.init_bias
              (Examples.net false, "out", [Examples.in_a; Examples.in_b], 2)
              0 1 Examples.bare [Examples.in_a; Examples.in_b]
              (Examples.net false) _ _ eq_refl eq_refl eq_refl)
    as (self & Hinit & Hunk & _ & Hin & _).
  exists self. split; [exact Hinit|]. split; [exact Hunk|exact Hin].
Defined.

Lemma append_inj_l (s a b : string) : s +:+ a = s +:+ b -> a = b.
Proof. induction s as [|c s IH]; simpl; [done|]. intros [= Heq]. auto. Qed.


(* ===================================================================== *)
(** * Further properties of [BasicLayer] *)
(* ===================================================================== *)

Lemma append_assoc (a b c : string) : (a +:+ b) +:+ c = a +:+ (b +:+ c).
Proof.
  induction a as [|ch a IH]; [reflexivity|].
  change (String ch ((a +:+ b) +:+ c) = String ch (a +:+ (b +:+ c))).
  by rewrite IH.
Qed.

Section MoreBasicLayerFacts.
Context {L : Type} `{Named L}.
Variable rng : Type.
Variable random_weight : nat -> nat -> option R -> rng -> matrix * rng.

(** X1.  A layer as [BasicLayer.__init__] leaves it keeps the arguments,
    declares no parameter and has no [_params]: until [set_params] is
    called, [_get_param] and [_tensor_preact] raise an attribute error for
    every parameter name. *)
Theorem fresh_layer_has_no_params layer_name inputs size profile rec
    (self : BasicLayer L) :
  basiclayer.__init__ layer_name inputs size profile rec = Ok self ->
  name self = layer_name /\ input_layers self = inputs /\
  output_size self = size /\ is_recurrent self = rec /\
  param_init_values self = ∅ /\
  (forall p, _get_param self p = Raise (AttributeError "_params")) /\
  (forall x p, _tensor_preact self x p = Raise (AttributeError "_params")).
Proof.
  intros Hinit. unfold basiclayer.__init__ in Hinit.
  apply bind_Ok in Hinit as (names & _ & Hret). injection Hret as <-.
  repeat split.
Qed.

(** X2.  After [set_params(params)], [_tensor_preact(x, p)] looks up the
    weight [<name>.<p>.W] first and the bias [<name>.<p>.b] second: a
    missing weight raises the key error of the weight key whatever the bias,
    a missing bias that of the bias key, and with a matrix and a vector
    under the two keys the result is [dot(x, W) + b]. *)
Theorem tensor_preact_lookups (self : BasicLayer L) params x p :
  (params !! (name self +:+ "." +:+ p +:+ ".W") = None ->
   _tensor_preact (set_params self params) x p
   = Raise (KeyError (name self +:+ "." +:+ p +:+ ".W"))) /\
  (forall weight,
      params !! (name self +:+ "." +:+ p +:+ ".W") = Some weight ->
      params !! (name self +:+ "." +:+ p +:+ ".b") = None ->
      _tensor_preact (set_params self params) x p
      = Raise (KeyError (name self +:+ "." +:+ p +:+ ".b"))) /\
  (forall (w : matrix) (b : vector),
      params !! (name self +:+ "." +:+ p +:+ ".W") = Some (Arr2 w) ->
      params !! (name self +:+ "." +:+ p +:+ ".b") = Some (Arr1 b) ->
      _tensor_preact (set_params self params) x p
      = Ok (add_bias (dot x w) b)).
Proof.
  unfold _tensor_preact, getitem; simpl. split; [|split].
  - by intros ->.
  - intros weight -> ->. done.
  - intros w b -> ->. done.
Qed.

(** X3.  Declaring a bias [p] and then a weight [q <> p] keeps both: after
    handing the declared values to [set_params], [_get_param] returns the
    bias for [p] and the weight for [q], and no other key of
    [param_init_values] has changed. *)
Theorem declarations_coexist (self s1 s2 : BasicLayer L) p q size value
    i o scale count g g' :
  p <> q ->
  _init_bias self p size value = Ok s1 ->
  _init_random_weight rng random_weight s1 q i o scale count g
  = Ok (s2, g') ->
  exists vb vw,
    param_init_values s1 !! (name self +:+ "." +:+ p) = Some vb /\
    _get_param (set_params s2 (param_init_values s2)) p = Ok vb /\
    _get_param (set_params s2 (param_init_values s2)) q = Ok vw /\
    (forall k, k <> name self +:+ "." +:+ p ->
               k <> name self +:+ "." +:+ q ->
               param_init_values s2 !! k = param_init_values self !! k).
Proof.
  intros Hpq Hb Hw.
  apply init_bias_declares in Hb as (vb & -> & _).
  apply init_weight_declares in Hw as (vw & -> & Hgetw). simpl in *.
  assert (name self +:+ "." +:+ q <> name self +:+ "." +:+ p) as Hkeys.
  { intros Heq%append_inj_l. injection Heq as Heq. by symmetry in Heq. }
  exists vb, vw. split; [by rewrite lookup_insert_eq|].
  split; [|split; [exact Hgetw|]].
  - unfold _get_param, param_key, getitem; simpl.
    by rewrite lookup_insert_ne, lookup_insert_eq.
  - intros k Hkp Hkq. by rewrite !lookup_insert_ne.
Qed.

(** X4.  Declaring the same parameter name twice keeps the second value
    only: the layer is the one that the second declaration alone would
    give. *)
Theorem redeclaration_overwrites (self s1 s2 : BasicLayer L) p
    size value size' value' :
  _init_bias self p size value = Ok s1 ->
  _init_bias s1 p size' value' = Ok s2 ->
  _init_bias self p size' value' = Ok s2.
Proof.
  intros Hb1 Hb2.
  apply init_bias_declares in Hb1 as (v1 & -> & _).
  unfold _init_bias in *.
  destruct (mapM (make_subvector size') (bias_values value'))
    as [subvectors|e]; simpl in *; [|discriminate].
  destruct (concatenate subvectors) as [vec|e]; simpl in *; [|discriminate].
  injection Hb2 as <-. unfold store_init_value, param_key; simpl.
  by rewrite insert_insert_eq.
Qed.

(** X5.  The key of a parameter does not separate the layer name from the
    parameter name: a layer whose name is [<a>.<p>] keeps its parameter [q]
    under the key that the layer [a] uses for its parameter [<p>.<q>], so
    with the same parameters both layers read the same value. *)
Theorem param_key_collision (a b : BasicLayer L) p q params :
  name b = name a +:+ "." +:+ p ->
  param_key b q = param_key a (p +:+ "." +:+ q) /\
  _get_param (set_params b params) q
  = _get_param (set_params a params) (p +:+ "." +:+ q).
Proof.
  intros Hname.
  assert (param_key b q = param_key a (p +:+ "." +:+ q)) as Hkey.
  { unfold param_key. rewrite Hname. by rewrite !append_assoc. }
  split; [exact Hkey|]. unfold _get_param; simpl.
  change (param_key (set_params b params) q) with (param_key b q).
  change (param_key (set_params a params) (p +:+ "." +:+ q))
    with (param_key a (p +:+ "." +:+ q)).
  by rewrite Hkey.
Qed.

Lemma draw_succ (gen : rng -> matrix * rng) n g :
  draw rng gen (S n) g
  = (fst (gen g) :: fst (draw rng gen n (snd (gen g))),
     snd (draw rng gen n (snd (gen g)))).
Proof.
  simpl. destruct (gen g) as [m g1]. simpl.
  by destruct (draw rng gen n g1) as [ms g2].
Qed.

(** The [count] draws of a declaration: block [k] is drawn in the state
    that the [k] draws before it leave. *)
Lemma draw_states (gen : rng -> matrix * rng) count g :
  draw rng gen count g
  = (map (fun k => fst (gen (Nat.iter k (fun s => snd (gen s)) g)))
         (seq 0 count),
     Nat.iter count (fun s => snd (gen s)) g).
Proof.
  revert g. induction count as [|n IH]; intros g; [done|].
  rewrite draw_succ, IH. cbn [fst snd seq map Nat.iter]. f_equal.
  - change (Nat.iter 0 (fun s => snd (gen s)) g) with g. f_equal.
    rewrite <- seq_shift, map_map. apply map_ext. intros k.
    by rewrite (Nat.iter_succ_r k (fun s => snd (gen s)) g).
  - by rewrite <- (Nat.iter_succ_r n (fun s => snd (gen s)) g).
Qed.

(** X6.  [_init_random_weight] draws its [count] blocks one after the
    other from the random state, each with scale 0.01 whatever [scale]
    is: block [k] is what [random_weight] returns in the state left by the
    [k] draws before it.  The call does what the concatenation of these
    blocks along the second axis does: where that raises, the call raises
    the same exception; where it returns a matrix, the call stores the
    matrix under [<name>.<p>], changes nothing else of the layer and
    leaves the state that [count] draws leave. *)
Theorem init_random_weight_draws (self : BasicLayer L) p i o scale
    count g :
  let gen := random_weight i o (Some 0.01%R) in
  let state k := Nat.iter k (fun s => snd (gen s)) g in
  _init_random_weight rng random_weight self p i o scale count g
  = (value ← concatenate_axis1
               (map (fun k => fst (gen (state k))) (seq 0 count));
     mret (store_init_value self (name self +:+ "." +:+ p) (Arr2 value),
           state count)).
Proof.
  intros gen state. unfold _init_random_weight, param_key.
  fold gen. by rewrite (draw_states gen count g).
Qed.

End MoreBasicLayerFacts.

Lemma fresh_layer_has_no_params_witness :
  param_init_values Examples.bare = ∅ /\
  _get_param Examples.bare "input/W" = Raise (AttributeError "_params").
Proof.
  destruct (fresh_layer_has_no_params (L:=Input.t) (H:=input_named)
              "out" [Examples.in_a; Examples.in_b]
              2 false false Examples.bare ltac:(reflexivity))
    as (_ & _ & _ & _ & Hvalues & Hget & _).
  split; [exact Hvalues|apply Hget].
Defined.

Lemma tensor_preact_lookups_witness :
  _tensor_preact (set_params Examples.bare Examples.slashed_params)
    [[[1%R; 2%R; 3%R]]] "input"
  = Raise (KeyError "out.input.W").
Proof.
  destruct (tensor_preact_lookups Examples.bare Examples.slashed_params
              [[[1%R; 2%R; 3%R]]] "input") as (Hmissing & _).
  apply Hmissing. reflexivity.
Defined.

Lemma declarations_coexist_witness :
  exists vb vw,
    _get_param
      (set_params
         (store_init_value
            (store_init_value Examples.bare "out.b" (Arr1 (zeros 2)))
            "out.W" (Arr2 [[0.01%R; 0.01%R]]))
         (<["out.W" := Arr2 [[0.01%R; 0.01%R]]]>
            (<["out.b" := Arr1 (zeros 2)]> ∅))) "b" = Ok vb /\
    _get_param
      (set_params
         (store_init_value
            (store_init_value Examples.bare "out.b" (Arr1 (zeros 2)))
            "out.W" (Arr2 [[0.01%R; 0.01%R]]))
         (<["out.W" := Arr2 [[0.01%R; 0.01%R]]]>
            (<["out.b" := Arr1 (zeros 2)]> ∅))) "W" = Ok vw.
Proof.
  destruct (declarations_coexist nat Examples.const_weight Examples.bare
              (store_init_value Examples.bare "out.b" (Arr1 (zeros 2)))
              (store_init_value
                 (store_init_value Examples.bare "out.b" (Arr1 (zeros 2)))
                 "out.W" (Arr2 [[0.01%R; 0.01%R]]))
              "b" "W" 2 BNone 1 2 None 1 0 1
              ltac:(discriminate) ltac:(reflexivity) ltac:(reflexivity))
    as (vb & vw & _ & Hb & Hw & _).
  exists vb, vw. split; [exact Hb|exact Hw].
Defined.

Lemma redeclaration_overwrites_witness :
  _init_bias Examples.bare "b" 3 (BFloat 1%R)
  = Ok (store_init_value
          (store_init_value Examples.bare "out.b" (Arr1 (zeros 2)))
          "out.b" (Arr1 [1%R; 1%R; 1%R])).
Proof.
  apply (redeclaration_overwrites Examples.bare
           (store_init_value Examples.bare "out.b" (Arr1 (zeros 2)))
           _ "b" 2 BNone 3 (BFloat 1%R)); reflexivity.
Defined.

Lemma param_key_collision_witness :
  param_key
    (mkBasicLayer "out.input" [] 2 false false ∅ None : BasicLayer Input.t)
    "W"
  = param_key Examples.bare "input.W".
Proof.
  apply (param_key_collision Examples.bare
           (mkBasicLayer "out.input" [] 2 false false ∅ None)
           "input" "W" ∅ ltac:(reflexivity)).
Defined.

